(** * MerkleTree: a shallow embedding of [merkletree.py]

    The Python class [MerkleTree] builds a binary hash tree over an ordered
    collection, searches it by digest and hands out membership proofs.  The
    definitions below follow the methods of the class one by one; the theorems
    relate them to the properties stated for the design. *)

From Equations Require Import Equations.
From Equations.Prop Require Import Logic.
From Stdlib Require Import List String Ascii Arith ZArith Bool Lia.
Import ListNotations.
Open Scope nat_scope.
Open Scope list_scope.

Set Implicit Arguments.

(** ** Python values, exceptions and list primitives *)

(** The objects that reach the tree: [None] or a [str].  Digests are [str]
    values (the default delegate is [str]); [+] on them is concatenation and
    [==] is string equality. *)
Inductive pyobj : Type :=
| PyNone
| PyStr (s : string).

(** The exceptions the methods can raise.  [Exception msg] is the plain
    [Exception] that [request_proof] raises with a message. *)
Inductive exn : Type :=
| AssertionError
| IndexError
| AttributeError
| Exception (msg : string).

Inductive result (A : Type) : Type :=
| Ok (a : A)
| Raise (e : exn).
Arguments Ok {A} a.
Arguments Raise {A} e.

Definition bind {A B : Type} (r : result A) (k : A -> result B) : result B :=
  match r with
  | Ok a => k a
  | Raise e => Raise e
  end.

Notation "x <- r ;; k" := (bind r (fun x => k))
  (at level 61, r at next level, right associativity).

(** [l[i]] for a non-negative index: [IndexError] past the end. *)
Definition getitem {A : Type} (l : list A) (i : nat) : result A :=
  match nth_error l i with
  | Some a => Ok a
  | None => Raise IndexError
  end.

(** [l[-1]]: the last element, [IndexError] on the empty list. *)
Definition getitem_last {A : Type} (l : list A) : result A :=
  match l with
  | [] => Raise IndexError
  | a :: l' => Ok (last l' a)
  end.

(** [range(0, stop, 2)]: the even numbers below [stop]. *)
Definition range_step2 (stop : nat) : list nat :=
  map (fun k => 2 * k) (seq 0 (Nat.div2 (S stop))).

(** [for x in xs: body], threading the loop state and stopping at the first
    exception. *)
Definition for_each {A S : Type} (xs : list A) (body : S -> A -> result S)
  (init : S) : result S :=
  fold_left (fun acc x => st <- acc ;; body st x) xs (Ok init).

(** The default [digest_delegate], [lambda x: str(x)]. *)
Definition default_digest (x : pyobj) : string :=
  match x with
  | PyNone => "None"%string
  | PyStr s => s
  end.

(** ** The node class *)

(** The induction principle of a type with [option] fields needs the
    [option] predicate lifting. *)
Scheme All for option.

(** [MerkleTree.__Node]: a value and two child references, each of which may
    be [None]. *)
Inductive __Node : Type :=
  mkNode { value : string; left : option __Node; right : option __Node }.

(** [a or b] on node references: a node object is always truthy (the class
    defines neither [__bool__] nor [__len__]), [None] is falsy. *)
Definition py_or (a b : option __Node) : option __Node :=
  match a with
  | Some _ => a
  | None => b
  end.

(** The nodes below (and including) a node, root first, left before right:
    the order in which [__print] visits them. *)
Fixpoint nodes (n : __Node) : list __Node :=
  match n with
  | mkNode _ l r =>
      n :: (match l with Some l' => nodes l' | None => [] end)
        ++ (match r with Some r' => nodes r' | None => [] end)
  end.

Definition nodes_from (node : option __Node) : list __Node :=
  match node with
  | Some n => nodes n
  | None => []
  end.

(** ** The tree class *)

Record MerkleTree : Type := mkTree {
  digest : pyobj -> string;
  root : option __Node
}.

Section Methods.

Variable self : MerkleTree.

(** Lines 87-93 of [__build_root], after the [size == 1] test: the padding
    [append] and the pairing loop.  [size] is read before the [append], so the
    loop never reaches the appended copy.  On an empty level [size - 1] is
    [-1] in Python and [0] here; both ranges are empty, and [collection[-1]]
    has raised before the loop is reached. *)
Definition fold_level (collection : list __Node) : result (list __Node) :=
  let size := List.length collection in
  collection <-
    (if size mod 2 =? 0 then
       lst <- getitem_last collection ;;
       Ok (collection ++ [mkNode (value lst) (left lst) (right lst)])
     else Ok collection) ;;
  let next_level := [] in
  for_each (range_step2 (size - 1))
    (fun next_level i =>
       a <- getitem collection i ;;
       b <- getitem collection (i + 1) ;;
       let digest := digest self (PyStr (value a ++ value b)%string) in
       let node := mkNode digest (Some a) (Some b) in
       Ok (next_level ++ [node]))
    next_level.

(** What the loop of [fold_level] computes, by recursion on the list: adjacent
    pairs become parents; a last node without a partner is not paired. *)
Fixpoint pair_level (collection : list __Node) : list __Node :=
  match collection with
  | a :: b :: rest =>
      mkNode (digest self (PyStr (value a ++ value b)%string)) (Some a) (Some b)
        :: pair_level rest
  | _ => []
  end.

(** *** Facts about one fold level, needed to define the recursion *)

Lemma for_each_nil (A S : Type) (body : S -> A -> result S) (init : S) :
  for_each [] body init = Ok init.
Proof. reflexivity. Qed.

Lemma fold_left_Raise (A S : Type) (body : S -> A -> result S) (xs : list A) e :
  fold_left (fun acc x => st <- acc ;; body st x) xs (Raise e) = Raise e.
Proof. induction xs as [|x xs IH]; simpl; auto. Qed.

Lemma for_each_cons (A S : Type) (body : S -> A -> result S) x xs (init : S) :
  for_each (x :: xs) body init = st <- body init x ;; for_each xs body st.
Proof.
  unfold for_each; simpl.
  destruct (body init x) as [st|e]; simpl; [reflexivity|].
  apply fold_left_Raise.
Qed.

Lemma pair_level_length (collection : list __Node) :
  List.length (pair_level collection) = Nat.div2 (List.length collection).
Proof.
  induction collection as [collection IH] using (well_founded_induction
    (Wf_nat.well_founded_ltof _ (@List.length __Node))).
  destruct collection as [|a [|b rest]]; simpl; try reflexivity.
  f_equal. apply IH. unfold Wf_nat.ltof. simpl. lia.
Qed.

(** The pairing loop over a list [pfx ++ rest ++ extra], started at the index
    where [rest] begins, appends the parents of the pairs of [rest]. *)
Lemma pairing_loop (k : nat) : forall rest pfx extra from acc,
  Nat.div2 (List.length rest) = k ->
  List.length pfx = 2 * from ->
  for_each (map (fun j => 2 * j) (seq from k))
    (fun next_level i =>
       a <- getitem (pfx ++ rest ++ extra) i ;;
       b <- getitem (pfx ++ rest ++ extra) (i + 1) ;;
       let digest := digest self (PyStr (value a ++ value b)%string) in
       let node := mkNode digest (Some a) (Some b) in
       Ok (next_level ++ [node]))
    acc
  = Ok (acc ++ pair_level rest).
Proof.
  induction k as [|k IH]; intros rest pfx extra from acc Hk Hpfx.
  - simpl. rewrite for_each_nil.
    destruct rest as [|a [|b rest]]; simpl in *; try discriminate;
      now rewrite app_nil_r.
  - destruct rest as [|a [|b rest]]; simpl in Hk; try discriminate.
    injection Hk as Hk.
    cbn [seq map]. rewrite for_each_cons.
    unfold getitem at 1 2.
    rewrite !(@nth_error_app2 _ pfx) by lia.
    replace (2 * from - List.length pfx) with 0 by lia.
    replace (2 * from + 1 - List.length pfx) with 1 by lia.
    cbn [nth_error app bind].
    specialize (IH rest (pfx ++ [a; b]) extra (S from)
      (acc ++ [mkNode (digest self (PyStr (value a ++ value b)%string))
                 (Some a) (Some b)]) Hk).
    rewrite <- app_assoc in IH. cbn [app] in IH.
    rewrite IH.
    + rewrite <- app_assoc. reflexivity.
    + rewrite length_app. simpl. lia.
Qed.

Lemma fold_level_eq (collection : list __Node) :
  fold_level collection =
  match collection with
  | [] => Raise IndexError
  | _ :: _ => Ok (pair_level collection)
  end.
Proof.
  destruct collection as [|n0 rest0]; [reflexivity|].
  set (collection := n0 :: rest0).
  assert (Hlen : S (List.length collection - 1) = List.length collection)
    by (subst collection; simpl; lia).
  unfold fold_level, range_step2. rewrite Hlen.
  destruct (List.length collection mod 2 =? 0).
  - unfold getitem_last. subst collection. cbn [bind].
    set (extra := [mkNode _ _ _]).
    exact (@pairing_loop _ (n0 :: rest0) [] extra 0 [] eq_refl eq_refl).
  - cbn [bind].
    pose proof (@pairing_loop _ collection [] [] 0 [] eq_refl eq_refl) as H.
    cbn [app] in H. rewrite app_nil_r in H. exact H.
Qed.

Lemma fold_level_decreases (collection next_level : list __Node) :
  fold_level collection = Ok next_level ->
  List.length next_level < List.length collection.
Proof.
  rewrite fold_level_eq.
  destruct collection as [|a rest]; [discriminate|].
  intros Heq.
  assert (Hnext : next_level = pair_level (a :: rest)) by congruence.
  rewrite Hnext, pair_level_length.
  apply Nat.lt_div2. simpl. lia.
Qed.

(** [MerkleTree.__build_root]: a one-element level is the root; any other
    level is folded once and the method recurses on the result. *)
Equations? __build_root (collection : list __Node) : result __Node
  by wf (List.length collection) lt :=
  __build_root collection with Nat.eqb (List.length collection) 1 := {
    | true := getitem collection 0
    | false with inspect (fold_level collection) := {
        | exist _ (Ok next_level) Hlevel := __build_root next_level
        | exist _ (Raise e) _ := Raise e } }.
Proof. now apply fold_level_decreases. Qed.

(** [MerkleTree.build_root]: the assertion, the padding of an odd-length
    input with its last item, the leaves, and the fold. *)
Definition build_root (iterable : list pyobj) : result __Node :=
  let collection := iterable in
  if Nat.eqb (List.length collection) 0 then Raise AssertionError else
  collection <-
    (if negb (List.length collection mod 2 =? 0) then
       lst <- getitem_last collection ;;
       Ok (collection ++ [lst])
     else Ok collection) ;;
  let collection := map (fun x => mkNode (digest self x) None None) collection in
  __build_root collection.

End Methods.

(** [MerkleTree.__init__]: store the delegate, then build and store the root.
    When [build_root] raises, the exception leaves the constructor and no
    object is returned. *)
Definition __init__ (iterable : list pyobj) (digest_delegate : pyobj -> string)
  : result MerkleTree :=
  let self := mkTree digest_delegate None in
  r <- build_root self iterable ;;
  Ok (mkTree digest_delegate (Some r)).

(** [MerkleTree.__find] on a node that is not [None]. *)
Fixpoint find_node (n : __Node) (v : string) : option __Node :=
  match n with
  | mkNode val l r =>
      if String.eqb val v then Some n
      else py_or (match l with Some l' => find_node l' v | None => None end)
                 (match r with Some r' => find_node r' v | None => None end)
  end.

(** [MerkleTree.__find]: [None] for a [None] node, the node itself when its
    value matches, otherwise the left search [or] the right search. *)
Definition __find (node : option __Node) (v : string) : option __Node :=
  match node with
  | None => None
  | Some n => find_node n v
  end.

(** [x is None] *)
Definition is_None (x : pyobj) : bool :=
  match x with
  | PyNone => true
  | PyStr _ => false
  end.

Definition node_is_None (node : option __Node) : bool :=
  match node with
  | None => true
  | Some _ => false
  end.

(** [MerkleTree.contains] *)
Definition contains (self : MerkleTree) (v : pyobj) : bool :=
  if is_None v || node_is_None (root self) then false
  else
    let hashed_value := digest self v in
    negb (node_is_None (__find (root self) hashed_value)).

(** [MerkleTree.__contains__] (the [in] operator): no [None] test, the found
    node is returned. *)
Definition __contains__ (self : MerkleTree) (v : pyobj) : option __Node :=
  let hashed_value := digest self v in
  __find (root self) hashed_value.

(** An entry of a proof list: a [(direction, hash)] tuple. *)
Definition proof_entry : Type := (nat * string)%type.

(** Truth value of an [int]. *)
Definition truthy (n : nat) : bool := negb (Nat.eqb n 0).

Definition not_contained_msg : string :=
  "This argument is not contained in the tree. Therefore is not part of the root".

(** The body of [MerkleTree.request_proof], with the method it calls on line
    146 as a parameter.  The callee receives the list [proof] and may fill it;
    its return value is not used. *)
Definition request_proof_with
  (build_valid_proof :
     option __Node -> string -> list proof_entry -> result (list proof_entry))
  (self : MerkleTree) (v : pyobj) : result (list proof_entry) :=
  let hashed_value := digest self v in
  if node_is_None (__find (root self) hashed_value) then
    Raise (Exception not_contained_msg)
  else
    let proof := [] in
    proof <- build_valid_proof (root self) hashed_value proof ;;
    if negb (Nat.eqb (List.length proof) 0) then
      e1 <- getitem proof 1 ;;
      Ok ((if truthy (fst e1) then 0 else 1, hashed_value) :: proof)
    else Ok proof.

(** The attribute [self.__build_valid_proof]: the class body defines no method
    of that name, so looking it up raises [AttributeError] before anything is
    called. *)
Definition __build_valid_proof
  (node : option __Node) (hashed_value : string) (proof : list proof_entry)
  : result (list proof_entry) :=
  Raise AttributeError.

(** [MerkleTree.request_proof] *)
Definition request_proof (self : MerkleTree) (v : pyobj)
  : result (list proof_entry) :=
  request_proof_with __build_valid_proof self v.

(** ** Notions the properties are stated with *)

(** The collection after the padding of [build_root]: an odd-length input
    gets its last item once more. *)
Definition padded (iterable : list pyobj) : list pyobj :=
  match iterable with
  | [] => []
  | x :: rest =>
      if Nat.even (List.length iterable) then iterable
      else iterable ++ [last rest x]
  end.

Definition leaf (D : pyobj -> string) (x : pyobj) : __Node :=
  mkNode (D x) None None.

(** A node is a leaf when both child references are [None], internal when
    both are nodes. *)
Definition is_leaf (n : __Node) : bool :=
  node_is_None (left n) && node_is_None (right n).

Definition is_internal (n : __Node) : bool :=
  negb (node_is_None (left n)) && negb (node_is_None (right n)).

(** The invariant of one node: no children and one of the nodes made from
    the items, or two children whose values, left then right, digest to the
    node's value. *)
Definition node_ok (D : pyobj -> string) (leaves : list __Node) (n : __Node)
  : Prop :=
  match left n, right n with
  | None, None => In n leaves
  | Some l, Some r => value n = D (PyStr (value l ++ value r)%string)
  | _, _ => False
  end.

Definition tree_ok (D : pyobj -> string) (leaves : list __Node) (n : __Node)
  : Prop :=
  Forall (node_ok D leaves) (nodes n).

(** The length is a power of two: no fold level above it has an odd number
    of nodes other than the root level. *)
Definition is_pow2 (n : nat) : Prop := exists k, n = 2 ^ k.

(** The number of levels between the root and the node [__find] returns. *)
Fixpoint depth_of (n : __Node) (v : string) : option nat :=
  match n with
  | mkNode val l r =>
      if String.eqb val v then Some 0
      else
        match (match l with Some l' => depth_of l' v | None => None end) with
        | Some d => Some (S d)
        | None =>
            match (match r with Some r' => depth_of r' v | None => None end) with
            | Some d => Some (S d)
            | None => None
            end
        end
  end.

(** ** The fold and the verifier of the design *)

(** One fold level as the design words it: an odd level gets its last node
    once more, then every adjacent pair becomes a parent. *)
Fixpoint design_level (D : pyobj -> string) (collection : list __Node)
  : list __Node :=
  match collection with
  | a :: b :: rest =>
      mkNode (D (PyStr (value a ++ value b)%string)) (Some a) (Some b)
        :: design_level D rest
  | [a] => [mkNode (D (PyStr (value a ++ value a)%string)) (Some a) (Some a)]
  | [] => []
  end.

(** Folding until one node remains; [fuel] bounds the number of levels. *)
Fixpoint design_fold (D : pyobj -> string) (fuel : nat)
  (collection : list __Node) : option __Node :=
  match collection with
  | [] => None
  | [r] => Some r
  | _ =>
      match fuel with
      | 0 => None
      | S fuel' => design_fold D fuel' (design_level D collection)
      end
  end.

Definition design_root (D : pyobj -> string) (iterable : list pyobj)
  : option __Node :=
  design_fold D (List.length iterable) (map (leaf D) iterable).

(** The side of a sibling under the parent it shares with the path node. *)
Inductive side : Type :=
| Left
| Right.

(** Modelled from the spec: the Proof Verifier [verify(itemDigest, proof,
    expectedRoot)], which the class does not define.  The accumulator starts
    as the item digest; an entry whose sibling is on the left puts the sibling
    digest first, any other entry puts the accumulator first; the result says
    whether the accumulator ends up equal to the expected root. *)
Definition verify (D : pyobj -> string) (itemDigest : string)
  (proof : list (string * side)) (expectedRoot : string) : bool :=
  let acc :=
    fold_left
      (fun acc entry =>
         match snd entry with
         | Left => D (PyStr (fst entry ++ acc)%string)
         | Right => D (PyStr (acc ++ fst entry)%string)
         end)
      proof itemDigest in
  String.eqb acc expectedRoot.

(** An entry of the class, [(direction, hash)], read as an entry of the
    verifier, [(siblingDigest, side)], under a reading of the direction. *)
Definition as_verifier_entry (side_of : nat -> side) (e : proof_entry)
  : string * side :=
  (snd e, side_of (fst e)).

(** ** Sample inputs *)

Definition ab : list pyobj := [PyStr "a"; PyStr "b"].

Definition ab_tree : MerkleTree :=
  mkTree default_digest
    (Some (mkNode "ab" (Some (leaf default_digest (PyStr "a")))
                       (Some (leaf default_digest (PyStr "b"))))).

Definition abc : list pyobj := [PyStr "a"; PyStr "b"; PyStr "c"].

Definition abc_tree : MerkleTree :=
  mkTree default_digest
    (Some (mkNode "abcc"
       (Some (mkNode "ab" (Some (leaf default_digest (PyStr "a")))
                          (Some (leaf default_digest (PyStr "b")))))
       (Some (mkNode "cc" (Some (leaf default_digest (PyStr "c")))
                          (Some (leaf default_digest (PyStr "c"))))))).

Definition six_items : list pyobj :=
  [PyStr "a"; PyStr "b"; PyStr "c"; PyStr "d"; PyStr "e"; PyStr "f"].

(** The tree the constructor returns for [six_items]: the fifth and the
    sixth item have no leaf. *)
Definition six_tree : MerkleTree :=
  mkTree default_digest
    (Some (mkNode "abcd"
       (Some (mkNode "ab" (Some (leaf default_digest (PyStr "a")))
                          (Some (leaf default_digest (PyStr "b")))))
       (Some (mkNode "cd" (Some (leaf default_digest (PyStr "c")))
                          (Some (leaf default_digest (PyStr "d"))))))).

(** ** Printing *)

(** [' ' * n] for a count that is not negative. *)
Fixpoint spaces (n : nat) : string :=
  match n with
  | 0 => EmptyString
  | S k => String " "%char (spaces k)
  end.

(** ['{0}Node: {1}'.format(' ' * indent, value)] for an [int] indent and a
    [str] value: [' ' * indent] is the empty string when [indent] is
    negative. *)
Definition node_line (indent : Z) (val : string) : string :=
  (spaces (Z.to_nat indent) ++ "Node: " ++ val)%string.

(** [MerkleTree.__print] on a node that is not [None].  The result is the
    trace of the [print] calls: the text each call is given, in call order
    (a call writes its text and a newline to the standard output). *)
Fixpoint print_node (n : __Node) (indent : Z) : list string :=
  match n with
  | mkNode val l r =>
      node_line indent val
        :: (match l with
            | Some l' => print_node l' (indent + 2)%Z
            | None => []
            end)
        ++ (match r with
            | Some r' => print_node r' (indent + 2)%Z
            | None => []
            end)
  end.

(** [MerkleTree.__print]: no call for [None], otherwise one call for the
    node, then the left subtree and the right subtree with [indent + 2]. *)
Definition __print (node : option __Node) (indent : Z) : list string :=
  match node with
  | None => []
  | Some n => print_node n indent
  end.

(** [MerkleTree.dump], for an [int] indent (the default is [0]). *)
Definition dump (self : MerkleTree) (indent : Z) : list string :=
  if node_is_None (root self) then []
  else __print (root self) indent.

(** ** Further notions the properties are stated with *)

(** The padded items whose leaves the fold keeps: the first
    [2 ^ log2 n] of the [n] padded items. *)
Definition kept (iterable : list pyobj) : list pyobj :=
  firstn (2 ^ Nat.log2 (List.length (padded iterable))) (padded iterable).

(** A perfect tree of height [h]: every node above the last level has two
    children and every node of the last level has none. *)
Fixpoint perfect (h : nat) (n : __Node) : bool :=
  match h, left n, right n with
  | 0, None, None => true
  | S h', Some l, Some r => perfect h' l && perfect h' r
  | _, _, _ => false
  end.

(** The values of the childless nodes below a node, left to right. *)
Fixpoint fringe (n : __Node) : list string :=
  match n with
  | mkNode val l r =>
      match l, r with
      | None, None => [val]
      | _, _ =>
          (match l with Some l' => fringe l' | None => [] end)
            ++ (match r with Some r' => fringe r' | None => [] end)
      end
  end.

(** The depth of every node below a node, in the order of [nodes], the node
    itself being at depth [d]. *)
Fixpoint depths (n : __Node) (d : nat) : list nat :=
  match n with
  | mkNode _ l r =>
      d :: (match l with Some l' => depths l' (S d) | None => [] end)
        ++ (match r with Some r' => depths r' (S d) | None => [] end)
  end.

Definition depths_from (node : option __Node) (d : nat) : list nat :=
  match node with
  | Some n => depths n d
  | None => []
  end.

(** The hash of [2 ^ k] digests, top down: a single digest is its own hash,
    and the hash of more is the digest of the hash of the first half followed
    by the hash of the second half. *)
Fixpoint merkle (D : pyobj -> string) (k : nat) (ds : list string) : string :=
  match k with
  | 0 => hd EmptyString ds
  | S k' =>
      D (PyStr (merkle D k' (firstn (2 ^ k') ds)
                  ++ merkle D k' (skipn (2 ^ k') ds))%string)
  end.

(** The parent the loop of [__build_root] makes of two nodes. *)
Definition parent (D : pyobj -> string) (a b : __Node) : __Node :=
  mkNode (D (PyStr (value a ++ value b)%string)) (Some a) (Some b).

(** * Properties *)

(** ** The recursion of [__build_root] *)

Section BuildFacts.

Variable self : MerkleTree.

Lemma __build_root_eq (collection : list __Node) :
  __build_root self collection =
  if Nat.eqb (List.length collection) 1 then getitem collection 0
  else
    match fold_level self collection with
    | Ok next_level => __build_root self next_level
    | Raise e => Raise e
    end.
Proof.
  funelim (__build_root self collection); rewrite Heq;
    try match goal with
        | H : fold_level _ _ = _ |- _ => rewrite H
        end; reflexivity.
Qed.

Lemma __build_root_single (n : __Node) : __build_root self [n] = Ok n.
Proof. rewrite __build_root_eq. reflexivity. Qed.

Lemma __build_root_nil : __build_root self [] = Raise IndexError.
Proof. rewrite __build_root_eq. reflexivity. Qed.

Lemma __build_root_step (a b : __Node) (rest : list __Node) :
  __build_root self (a :: b :: rest) =
  __build_root self (pair_level self (a :: b :: rest)).
Proof.
  rewrite __build_root_eq. cbn [List.length Nat.eqb].
  rewrite fold_level_eq. reflexivity.
Qed.

(** Induction along the recursion of [__build_root]. *)
Lemma level_ind (P : list __Node -> Prop) :
  P [] ->
  (forall n, P [n]) ->
  (forall a b rest, P (pair_level self (a :: b :: rest)) -> P (a :: b :: rest)) ->
  forall collection, P collection.
Proof.
  intros Hnil Hone Hstep collection.
  induction collection as [collection IH] using (well_founded_induction
    (Wf_nat.well_founded_ltof _ (@List.length __Node))).
  destruct collection as [|a [|b rest]]; auto.
  apply Hstep, IH. unfold Wf_nat.ltof.
  rewrite pair_level_length. apply Nat.lt_div2. simpl. lia.
Qed.

(** Induction on a list two elements at a time. *)
Lemma pair_ind (A : Type) (P : list A -> Prop) :
  P [] ->
  (forall x, P [x]) ->
  (forall a b rest, P rest -> P (a :: b :: rest)) ->
  forall l, P l.
Proof.
  intros Hnil Hone Hstep.
  fix IH 1. intros [|a [|b rest]];
    [exact Hnil | exact (Hone a) | exact (Hstep a b rest (IH rest))].
Qed.

Lemma pair_level_not_nil (a b : __Node) (rest : list __Node) :
  pair_level self (a :: b :: rest) <> [].
Proof. discriminate. Qed.

(** The fold returns a node for every level that is not empty. *)
Lemma __build_root_total (collection : list __Node) :
  collection <> [] -> exists r, __build_root self collection = Ok r.
Proof.
  induction collection as [|n|a b rest IH] using level_ind; intros Hne.
  - contradiction.
  - exists n. apply __build_root_single.
  - rewrite __build_root_step. apply IH, pair_level_not_nil.
Qed.

End BuildFacts.

Lemma mod2_eqb_even (n : nat) : (n mod 2 =? 0) = Nat.even n.
Proof.
  destruct (Nat.even n) eqn:E.
  - apply Nat.eqb_eq. apply Nat.even_spec in E.
    destruct E as [k ->]. now rewrite Nat.mul_comm, Nat.Div0.mod_mul.
  - apply Nat.eqb_neq. intros H.
    assert (Hodd : Nat.odd n = true) by (now rewrite <- Nat.negb_even, E).
    apply Nat.odd_spec in Hodd. destruct Hodd as [k ->].
    rewrite Nat.add_comm, Nat.mul_comm, Nat.Div0.mod_add in H. discriminate.
Qed.

Lemma build_root_eq (self : MerkleTree) (iterable : list pyobj) :
  build_root self iterable =
  match iterable with
  | [] => Raise AssertionError
  | _ :: _ => __build_root self (map (leaf (digest self)) (padded iterable))
  end.
Proof.
  destruct iterable as [|x rest]; [reflexivity|].
  unfold build_root, padded.
  rewrite mod2_eqb_even.
  cbn [List.length Nat.eqb].
  destruct (Nat.even (S (List.length rest))); reflexivity.
Qed.

Lemma padded_not_nil (x : pyobj) (rest : list pyobj) : padded (x :: rest) <> [].
Proof.
  unfold padded. destruct (Nat.even _); [discriminate|].
  destruct rest; discriminate.
Qed.

Lemma padded_incl (iterable : list pyobj) (x : pyobj) :
  In x iterable -> In x (padded iterable).
Proof.
  destruct iterable as [|y rest]; [auto|].
  unfold padded. destruct (Nat.even _); [auto|].
  intros H. apply in_or_app. now left.
Qed.

Lemma __init___eq (iterable : list pyobj) (D : pyobj -> string) :
  __init__ iterable D =
  match iterable with
  | [] => Raise AssertionError
  | _ :: _ =>
      r <- __build_root (mkTree D None) (map (leaf D) (padded iterable)) ;;
      Ok (mkTree D (Some r))
  end.
Proof.
  unfold __init__. rewrite build_root_eq.
  destruct iterable; reflexivity.
Qed.

(** ** Construction *)

(** C7: construction raises exactly when the input collection is empty, the
    exception is then the failed assertion and no tree is returned; for every
    other input the constructor returns a tree that holds the delegate and a
    root that is not [None]. *)
Theorem construction_fails_iff_empty (iterable : list pyobj) (D : pyobj -> string) :
  ((exists e, __init__ iterable D = Raise e) <-> iterable = []) /\
  (__init__ iterable D = Raise AssertionError <-> iterable = []) /\
  (iterable = [] \/
   exists r, __init__ iterable D = Ok (mkTree D (Some r))).
Proof.
  rewrite __init___eq.
  destruct iterable as [|x rest].
  - repeat split; auto. exists AssertionError. reflexivity.
  - destruct (@__build_root_total (mkTree D None)
                (map (leaf D) (padded (x :: rest)))) as [r Hr].
    { intros H. apply map_eq_nil in H. now apply padded_not_nil in H. }
    rewrite Hr. cbn [bind].
    repeat split; try discriminate.
    + intros [e He]. discriminate.
    + right. exists r. reflexivity.
Qed.

(** A one-item input is padded to two leaves, which are folded once. *)
Lemma single_item_tree (x : pyobj) (D : pyobj -> string) :
  __init__ [x] D =
  Ok (mkTree D
        (Some (mkNode (D (PyStr (D x ++ D x)%string))
                 (Some (leaf D x)) (Some (leaf D x))))).
Proof.
  rewrite __init___eq. cbn [padded List.length Nat.even last app map].
  rewrite __build_root_step. cbn [pair_level].
  rewrite __build_root_single. reflexivity.
Qed.

(** C3, as the code has it: for a single-item input [[x]] the root digest is
    [D(D(x) ++ D(x))]: the item is duplicated by the odd-length padding of
    [build_root] and the two leaves are folded once. *)
Theorem single_item_root (x : pyobj) (D : pyobj -> string) :
  exists t r,
    __init__ [x] D = Ok t /\ root t = Some r /\
    value r = D (PyStr (D x ++ D x)%string) /\
    left r = Some (leaf D x) /\ right r = Some (leaf D x).
Proof.
  eexists. eexists. rewrite single_item_tree. repeat split.
Qed.

(** C3 fails as stated: with the default delegate the root built from
    [["a"]] has digest ["aa"], not the leaf digest ["a"]. *)
Lemma single_item_root_is_not_leaf_digest :
  exists t r,
    __init__ [PyStr "a"] default_digest = Ok t /\ root t = Some r /\
    value r = "aa"%string /\
    String.eqb (value r) (default_digest (PyStr "a")) = false.
Proof.
  eexists. eexists. rewrite single_item_tree. repeat split.
Qed.

(** The three-item scenario: [[a, b, c]] is padded to [[a, b, c, c]] and the
    root digest is [D(D(D(a) ++ D(b)) ++ D(D(c) ++ D(c)))]. *)
Lemma three_item_root (a b c : pyobj) (D : pyobj -> string) :
  exists t r,
    __init__ [a; b; c] D = Ok t /\ root t = Some r /\
    value r =
    D (PyStr (D (PyStr (D a ++ D b)%string) ++ D (PyStr (D c ++ D c)%string))%string).
Proof.
  eexists. eexists. rewrite __init___eq.
  cbn [padded List.length Nat.even last app map].
  rewrite __build_root_step. cbn [pair_level leaf value].
  rewrite __build_root_step. cbn [pair_level leaf value].
  rewrite __build_root_single. repeat split.
Qed.

(** On a level of even length the loop of [__build_root] is the fold level of
    the design. *)
Lemma pair_level_even (self : MerkleTree) (collection : list __Node) :
  Nat.even (List.length collection) = true ->
  pair_level self collection = design_level (digest self) collection.
Proof.
  induction collection as [|x|a b rest IH] using pair_ind; intros Hev.
  - reflexivity.
  - discriminate.
  - cbn [pair_level design_level]. f_equal. apply IH. exact Hev.
Qed.

(** On a level of odd length the loop leaves the last node out: the level is
    folded as if that node were not there. *)
Lemma pair_level_odd (self : MerkleTree) (collection : list __Node) (n : __Node) :
  Nat.even (List.length collection) = true ->
  pair_level self (collection ++ [n]) = pair_level self collection.
Proof.
  induction collection as [|x|a b rest IH] using pair_ind; intros Hev.
  - reflexivity.
  - discriminate.
  - cbn [app pair_level]. f_equal. apply IH. exact Hev.
Qed.

(** C2 at a level of odd length: six items fold to three nodes, and there the
    code pairs the first two and leaves the third out, so the root digest is
    ["abcd"] under the default delegate; the fold of the design duplicates the
    third node and reaches ["abcdefef"]. *)
Theorem odd_level_drops_last_node :
  exists t r d,
    __init__ six_items default_digest = Ok t /\ root t = Some r /\
    value r = "abcd"%string /\
    design_root default_digest six_items = Some d /\
    value d = "abcdefef"%string /\
    contains t (PyStr "e") = false /\ contains t (PyStr "f") = false.
Proof.
  eexists. eexists. eexists.
  rewrite __init___eq. unfold six_items.
  cbn [padded List.length Nat.even last app map].
  do 2 (rewrite __build_root_step; cbn [pair_level leaf value String.append]).
  rewrite __build_root_single. cbn [bind root].
  repeat split.
Qed.

(** ** Search *)

Lemma find_app_first (A : Type) (f : A -> bool) (l1 l2 : list A) :
  find f (l1 ++ l2) =
  match find f l1 with
  | Some x => Some x
  | None => find f l2
  end.
Proof.
  induction l1 as [|x l1 IH]; simpl; [reflexivity|].
  destruct (f x); auto.
Qed.

(** The equation of [__find] as the method is written. *)
Lemma __find_eq (n : __Node) (v : string) :
  __find (Some n) v =
  if String.eqb (value n) v then Some n
  else py_or (__find (left n) v) (__find (right n) v).
Proof. destruct n as [val l r]. reflexivity. Qed.

(** [__find] returns the first node, in root-first left-before-right order,
    whose value is the one looked for. *)
Lemma find_node_first_match (n : __Node) (v : string) :
  find_node n v = find (fun m => String.eqb (value m) v) (nodes n).
Proof.
  induction n as [val l IHl r IHr] using __Node_ind.
  cbn [find_node nodes find value].
  destruct (String.eqb val v); [reflexivity|].
  rewrite find_app_first.
  destruct IHl as [l' IHl|]; destruct IHr as [r' IHr|];
    cbn [py_or find]; rewrite ?IHl, ?IHr;
    try destruct (find _ (nodes l')); reflexivity.
Qed.

Lemma __find_first_match (node : option __Node) (v : string) :
  __find node v = find (fun m => String.eqb (value m) v) (nodes_from node).
Proof.
  destruct node as [n|]; [apply find_node_first_match | reflexivity].
Qed.

Lemma find_is_Some_existsb (A : Type) (f : A -> bool) (l : list A) :
  negb (match find f l with None => true | Some _ => false end) = existsb f l.
Proof.
  induction l as [|x l IH]; simpl; [reflexivity|].
  destruct (f x); auto.
Qed.

Lemma __find_found_iff (node : option __Node) (v : string) :
  node_is_None (__find node v) = false <->
  exists m, In m (nodes_from node) /\ value m = v.
Proof.
  rewrite __find_first_match.
  assert (H : node_is_None (find (fun m => String.eqb (value m) v)
                              (nodes_from node)) = false <->
              existsb (fun m => String.eqb (value m) v) (nodes_from node) = true).
  { rewrite <- find_is_Some_existsb. unfold node_is_None.
    destruct (find _ _); simpl; split; congruence. }
  rewrite H, existsb_exists.
  split; intros [m [Hin Hm]]; exists m; split; auto;
    now apply String.eqb_eq.
Qed.

(** [contains] in one equation: the query is not [None] and some node of the
    tree carries its digest. *)
Lemma contains_eq (self : MerkleTree) (v : pyobj) :
  contains self v =
  negb (is_None v) &&
  existsb (fun m => String.eqb (value m) (digest self v)) (nodes_from (root self)).
Proof.
  unfold contains. destruct v as [|s]; [reflexivity|].
  cbn [is_None orb negb andb].
  destruct (root self) as [r|] eqn:Hroot; cbn [node_is_None nodes_from existsb].
  - rewrite __find_first_match. cbn [nodes_from].
    unfold node_is_None. apply find_is_Some_existsb.
  - reflexivity.
Qed.

(** C10: [contains(None)] is [False] on every tree, whatever the delegate
    would make of [None]; the tree built from [[None]] with the default
    delegate has a leaf whose value is [str(None)], and the answer is still
    [False], while the [in] operator ([__contains__]) does find that leaf. *)
Theorem contains_None_is_false :
  (forall self : MerkleTree, contains self PyNone = false) /\
  (exists t,
     __init__ [PyNone] default_digest = Ok t /\
     __find (root t) (digest t PyNone) = Some (leaf default_digest PyNone) /\
     __contains__ t PyNone = Some (leaf default_digest PyNone) /\
     contains t PyNone = false).
Proof.
  split; [reflexivity|].
  eexists. rewrite single_item_tree. repeat split.
Qed.

(** C8, as the code has it: for every value [v] other than [None],
    [contains(v)] is [True] exactly when [digest(v)] is the value of some node
    of the tree, leaf or internal; the node [__find] returns is the first match
    in root-first, left-before-right order; a query whose digest is the
    value of no node is answered [False]; and [contains(None)] is [False],
    whatever the tree holds. *)
Theorem contains_iff_some_node_matches (self : MerkleTree) (v : pyobj) :
  (is_None v = false ->
   (contains self v = true <->
    exists m, In m (nodes_from (root self)) /\ value m = digest self v)) /\
  __find (root self) (digest self v) =
    find (fun m => String.eqb (value m) (digest self v)) (nodes_from (root self)) /\
  ((forall m, In m (nodes_from (root self)) -> value m <> digest self v) ->
   contains self v = false) /\
  contains self PyNone = false.
Proof.
  split; [|split; [|split; [|reflexivity]]].
  - intros Hv. rewrite contains_eq, Hv. cbn [negb andb].
    rewrite existsb_exists.
    split; intros [m [Hin Hm]]; exists m; split; auto;
      now apply String.eqb_eq.
  - apply __find_first_match.
  - intros Hno. rewrite contains_eq.
    destruct (existsb _ _) eqn:E; [|apply andb_false_r].
    apply existsb_exists in E. destruct E as [m [Hin Hm]].
    apply String.eqb_eq in Hm. now apply Hno in Hin.
Qed.

(** C8 fails as stated at [v = None]: in the tree built from [[None]] with the
    default delegate the digest of [None] is the value of a leaf, and
    [contains(None)] is [False]. *)
Lemma contains_None_misses_matching_node :
  exists t m,
    __init__ [PyNone] default_digest = Ok t /\
    In m (nodes_from (root t)) /\
    value m = digest t PyNone /\
    contains t PyNone = false.
Proof.
  eexists. exists (leaf default_digest PyNone).
  rewrite single_item_tree. repeat split.
  cbn. right. left. reflexivity.
Qed.

(** ** The shape of a built tree *)

Lemma node_ok_leaf_or_internal (D : pyobj -> string) (leaves : list __Node)
  (n : __Node) :
  node_ok D leaves n -> is_leaf n = negb (is_internal n).
Proof.
  unfold node_ok, is_leaf, is_internal.
  destruct (left n), (right n); simpl; tauto.
Qed.

Lemma tree_ok_leaf (D : pyobj -> string) (leaves : list __Node) (x : pyobj) :
  In (leaf D x) leaves -> tree_ok D leaves (leaf D x).
Proof. intros Hin. constructor; [exact Hin | constructor]. Qed.

Lemma tree_ok_parent (D : pyobj -> string) (leaves : list __Node)
  (a b : __Node) :
  tree_ok D leaves a -> tree_ok D leaves b ->
  tree_ok D leaves
    (mkNode (D (PyStr (value a ++ value b)%string)) (Some a) (Some b)).
Proof.
  intros Ha Hb. unfold tree_ok. cbn [nodes].
  constructor; [reflexivity|]. apply Forall_app. split; assumption.
Qed.

Lemma pair_level_ok (self : MerkleTree) (leaves collection : list __Node) :
  Forall (tree_ok (digest self) leaves) collection ->
  Forall (tree_ok (digest self) leaves) (pair_level self collection).
Proof.
  induction collection as [|x|a b rest IH] using pair_ind; intros Hall;
    cbn [pair_level]; try constructor.
  - inversion Hall as [|? ? Ha Hrest]; subst.
    inversion Hrest as [|? ? Hb Hrest']; subst.
    now apply tree_ok_parent.
  - apply IH. inversion Hall as [|? ? _ Hrest]; subst.
    now inversion Hrest.
Qed.

Lemma __build_root_ok (self : MerkleTree) (leaves collection : list __Node)
  (r : __Node) :
  Forall (tree_ok (digest self) leaves) collection ->
  __build_root self collection = Ok r ->
  tree_ok (digest self) leaves r.
Proof.
  revert r.
  induction collection as [|n|a b rest IH] using (level_ind self);
    intros r Hall Hr.
  - rewrite __build_root_nil in Hr. discriminate.
  - rewrite __build_root_single in Hr. injection Hr as <-.
    now inversion Hall.
  - rewrite __build_root_step in Hr.
    apply IH; [|exact Hr]. now apply pair_level_ok.
Qed.

(** C9: every node reachable from the root of a built tree has either no
    child (a leaf) or two children (an internal node), never exactly one; the
    leaves are the nodes made from the items of the padded input; and the
    value of an internal node is the digest of its left child's value followed
    by its right child's value. *)
Theorem built_tree_invariant (iterable : list pyobj) (D : pyobj -> string)
  (t : MerkleTree) (n : __Node) :
  __init__ iterable D = Ok t ->
  In n (nodes_from (root t)) ->
  is_leaf n = negb (is_internal n) /\
  (is_leaf n = true <-> left n = None /\ right n = None) /\
  (is_leaf n = true <-> exists x, In x (padded iterable) /\ n = leaf D x) /\
  (is_leaf n = false ->
   exists l r, left n = Some l /\ right n = Some r /\
               value n = digest t (PyStr (value l ++ value r)%string)).
Proof.
  intros Hinit Hin.
  rewrite __init___eq in Hinit.
  destruct iterable as [|x rest]; [discriminate|].
  destruct (__build_root _ _) as [r|e] eqn:Hr; [|discriminate].
  injection Hinit as <-. cbn [root nodes_from digest] in *.
  set (leaves := map (leaf D) (padded (x :: rest))) in *.
  assert (Hok : tree_ok D leaves r).
  { eapply (@__build_root_ok (mkTree D None)); [|exact Hr].
    apply Forall_forall. intros m Hm.
    destruct (proj1 (in_map_iff _ _ _) Hm) as [y [<- _]].
    now apply tree_ok_leaf. }
  unfold tree_ok in Hok. rewrite Forall_forall in Hok.
  specialize (Hok n Hin).
  split; [now apply node_ok_leaf_or_internal with D leaves|].
  assert (Hmade : (exists y, In y (padded (x :: rest)) /\ n = leaf D y) <->
                  In n leaves).
  { unfold leaves. rewrite in_map_iff.
    split; intros [y [H1 H2]]; exists y; auto. }
  unfold node_ok in Hok. unfold is_leaf.
  destruct (left n) as [l|] eqn:Hl, (right n) as [r'|] eqn:Hr';
    cbn [node_is_None andb]; try contradiction.
  - split; [split; [discriminate | intros [H _]; discriminate]|].
    split.
    + split; [discriminate|]. intros [y [_ Hy]].
      rewrite Hy in Hl. discriminate Hl.
    + intros _. exists l, r'. auto.
  - split; [tauto|]. split; [|discriminate].
    split; [intros _; now apply Hmade | reflexivity].
Qed.

Lemma abc_tree_built : __init__ abc default_digest = Ok abc_tree.
Proof. reflexivity. Qed.

(** The invariant at the internal node ["cc"] of the tree built from
    [["a", "b", "c"]]. *)
Lemma built_tree_invariant_witness :
  let n := mkNode "cc" (Some (leaf default_digest (PyStr "c")))
                       (Some (leaf default_digest (PyStr "c"))) in
  is_leaf n = negb (is_internal n) /\
  (is_leaf n = true <-> left n = None /\ right n = None) /\
  (is_leaf n = true <->
   exists x, In x (padded abc) /\ n = leaf default_digest x) /\
  (is_leaf n = false ->
   exists l r, left n = Some l /\ right n = Some r /\
               value n = digest abc_tree (PyStr (value l ++ value r)%string)).
Proof.
  apply (@built_tree_invariant abc default_digest abc_tree).
  - reflexivity.
  - simpl. do 4 right. left. reflexivity.
Defined.

(** ** Membership of the input items *)

Lemma nodes_self (n : __Node) : In n (nodes n).
Proof. destruct n. left. reflexivity. Qed.

Lemma nodes_left (p n : __Node) : left p = Some n -> In n (nodes p).
Proof.
  destruct p as [v l r]. cbn [left nodes]. intros ->.
  right. apply in_or_app. left. apply nodes_self.
Qed.

Lemma nodes_right (p n : __Node) : right p = Some n -> In n (nodes p).
Proof.
  destruct p as [v l r]. cbn [right nodes]. intros ->.
  right. apply in_or_app. right. apply nodes_self.
Qed.

(** Reachability composes: a node below a node below [n] is below [n]. *)
Lemma nodes_trans (n : __Node) :
  forall m k, In m (nodes n) -> In k (nodes m) -> In k (nodes n).
Proof.
  induction n as [val l IHl r IHr] using __Node_ind.
  intros m k Hm Hk. cbn [nodes] in Hm.
  destruct Hm as [<-|Hm]; [exact Hk|].
  cbn [nodes]. right. apply in_or_app.
  apply in_app_or in Hm. destruct Hm as [Hm|Hm].
  - left. destruct IHl as [l' IHl|]; [|contradiction]. eauto.
  - right. destruct IHr as [r' IHr|]; [|contradiction]. eauto.
Qed.

(** On a level of even length every node gets a parent. *)
Lemma pair_level_parent (self : MerkleTree) (collection : list __Node) (n : __Node) :
  Nat.even (List.length collection) = true ->
  In n collection ->
  exists p, In p (pair_level self collection) /\
            (left p = Some n \/ right p = Some n).
Proof.
  induction collection as [|x|a b rest IH] using pair_ind; intros Hev Hin.
  - contradiction.
  - discriminate.
  - cbn [pair_level]. destruct Hin as [<-|[<-|Hin]].
    + eexists. split; [left; reflexivity|]. left. reflexivity.
    + eexists. split; [left; reflexivity|]. right. reflexivity.
    + destruct (IH Hev Hin) as [p [Hp Hc]].
      exists p. split; [right; exact Hp | exact Hc].
Qed.

Lemma is_pow2_half (n : nat) :
  is_pow2 (S (S n)) ->
  Nat.even (S (S n)) = true /\ is_pow2 (Nat.div2 (S (S n))).
Proof.
  intros [k Hk]. destruct k as [|k]; [discriminate|].
  rewrite Nat.pow_succ_r' in Hk. rewrite Hk. split.
  - apply Nat.even_spec. now exists (2 ^ k).
  - exists k. apply Nat.div2_double.
Qed.

(** When the level has a power-of-two length, every node of the level is in
    the tree the fold returns. *)
Lemma __build_root_keeps (self : MerkleTree) (collection : list __Node) :
  forall r n,
    is_pow2 (List.length collection) ->
    __build_root self collection = Ok r ->
    In n collection -> In n (nodes r).
Proof.
  induction collection as [|m|a b rest IH] using (level_ind self);
    intros r n Hpow Hr Hin.
  - contradiction.
  - rewrite __build_root_single in Hr. injection Hr as <-.
    destruct Hin as [<-|[]]. apply nodes_self.
  - rewrite __build_root_step in Hr.
    apply is_pow2_half in Hpow. destruct Hpow as [Hev Hhalf].
    destruct (pair_level_parent self (a :: b :: rest) n Hev Hin)
      as [p [Hp Hchild]].
    apply nodes_trans with p.
    + apply IH; auto. now rewrite pair_level_length.
    + destruct Hchild; [now apply nodes_left | now apply nodes_right].
Qed.

(** C1, as the code has it: when the padded input has a power-of-two length,
    every item of the input other than [None] is answered [True] by
    [contains]. *)
Theorem items_are_contained (iterable : list pyobj) (D : pyobj -> string)
  (t : MerkleTree) (x : pyobj) :
  __init__ iterable D = Ok t ->
  is_pow2 (List.length (padded iterable)) ->
  In x iterable ->
  is_None x = false ->
  contains t x = true.
Proof.
  intros Hinit Hpow Hin Hx.
  rewrite __init___eq in Hinit.
  destruct iterable as [|y rest]; [discriminate|].
  destruct (__build_root _ _) as [r|e] eqn:Hr; [|discriminate].
  injection Hinit as <-.
  rewrite contains_eq, Hx. cbn [negb andb root digest nodes_from].
  apply existsb_exists. exists (leaf D x). split.
  - eapply __build_root_keeps; [|exact Hr|].
    + now rewrite length_map.
    + apply in_map, padded_incl, Hin.
  - apply String.eqb_refl.
Qed.

(** [contains("c")] on the tree built from [["a", "b", "c"]]. *)
Lemma items_are_contained_witness : contains abc_tree (PyStr "c") = true.
Proof.
  apply (@items_are_contained abc default_digest abc_tree (PyStr "c")).
  - reflexivity.
  - exists 2. reflexivity.
  - simpl. right. right. left. reflexivity.
  - reflexivity.
Defined.

(** C1 fails as stated for an item that is [None]: the tree built from
    [[None]] answers [False] for [None]. *)
Lemma None_item_is_not_contained :
  exists t,
    __init__ [PyNone] default_digest = Ok t /\
    In PyNone [PyNone] /\
    contains t PyNone = false.
Proof.
  eexists. rewrite single_item_tree. repeat split. now left.
Qed.

(** Items whose leaves are left out at an odd fold level are not found
    either: of six items the fifth and the sixth are answered [False]. *)
Lemma dropped_items_are_not_contained :
  exists t,
    __init__ six_items default_digest = Ok t /\
    In (PyStr "e") six_items /\ contains t (PyStr "e") = false /\
    In (PyStr "f") six_items /\ contains t (PyStr "f") = false.
Proof.
  eexists. rewrite __init___eq. unfold six_items.
  cbn [padded List.length Nat.even last app map].
  do 2 (rewrite __build_root_step; cbn [pair_level leaf value String.append]).
  rewrite __build_root_single. cbn [bind].
  repeat split; simpl; auto 10.
Qed.

(** ** Proof requests *)

(** The exception for an absent digest is raised exactly when [__find] finds
    no node, whatever method line 146 calls. *)
Lemma request_proof_with_not_found
  (h : option __Node -> string -> list proof_entry -> result (list proof_entry))
  (self : MerkleTree) (v : pyobj) :
  node_is_None (__find (root self) (digest self v)) = true ->
  request_proof_with h self v = Raise (Exception not_contained_msg).
Proof. unfold request_proof_with. now intros ->. Qed.

(** Lines 148-149 read [proof[1]] whenever the list is not empty and then put
    one more entry in front: a list that comes back has no entry or at least
    three, whatever method line 146 calls. *)
Lemma request_proof_with_length
  (h : option __Node -> string -> list proof_entry -> result (list proof_entry))
  (self : MerkleTree) (v : pyobj) (p : list proof_entry) :
  request_proof_with h self v = Ok p ->
  p = [] \/
  exists e1 e2 rest,
    p = (if truthy (fst e2) then 0 else 1, digest self v) :: e1 :: e2 :: rest.
Proof.
  unfold request_proof_with.
  destruct (node_is_None _); [discriminate|].
  destruct (h _ _ _) as [q|e]; [|discriminate]. cbn [bind].
  destruct q as [|e1 [|e2 rest]]; cbn.
  - intros [= <-]. now left.
  - discriminate.
  - intros [= <-]. right. now exists e1, e2, rest.
Qed.

(** A callee that leaves exactly one entry makes line 149 raise
    [IndexError]. *)
Lemma request_proof_with_one_entry
  (h : option __Node -> string -> list proof_entry -> result (list proof_entry))
  (self : MerkleTree) (v : pyobj) (e : proof_entry) :
  node_is_None (__find (root self) (digest self v)) = false ->
  h (root self) (digest self v) [] = Ok [e] ->
  request_proof_with h self v = Raise IndexError.
Proof.
  unfold request_proof_with. intros -> ->. reflexivity.
Qed.

(** With the class as it is, a request for a digest that is in the tree ends
    in [AttributeError], and a request for one that is not ends in the
    [Exception] of line 143. *)
Lemma request_proof_eq (self : MerkleTree) (v : pyobj) :
  request_proof self v =
  if node_is_None (__find (root self) (digest self v))
  then Raise (Exception not_contained_msg)
  else Raise AttributeError.
Proof.
  unfold request_proof, request_proof_with.
  destruct (node_is_None _); reflexivity.
Qed.

Lemma request_proof_never_returns (self : MerkleTree) (v : pyobj)
  (p : list proof_entry) :
  request_proof self v <> Ok p.
Proof. rewrite request_proof_eq. destruct (node_is_None _); discriminate. Qed.

Lemma ab_tree_built : __init__ ab default_digest = Ok ab_tree.
Proof. reflexivity. Qed.

(** C4 on the tree built from [["a", "b"]]: the digest of ["a"] is the value
    of a leaf one level below the root, and [request_proof("a")] raises
    [AttributeError] instead of returning a one-entry proof; lines 148-149
    alone already exclude a one-entry result, whatever line 146 calls. *)
Theorem request_proof_returns_no_proof :
  __init__ ab default_digest = Ok ab_tree /\
  __find (root ab_tree) (digest ab_tree (PyStr "a")) =
    Some (leaf default_digest (PyStr "a")) /\
  (exists r, root ab_tree = Some r /\
             depth_of r (digest ab_tree (PyStr "a")) = Some 1) /\
  request_proof ab_tree (PyStr "a") = Raise AttributeError /\
  (forall h p, request_proof_with h ab_tree (PyStr "a") = Ok p ->
               List.length p <> 1).
Proof.
  split; [exact ab_tree_built|].
  split; [reflexivity|].
  split; [eexists; split; reflexivity|].
  split; [reflexivity|].
  intros h p Hp. apply request_proof_with_length in Hp.
  destruct Hp as [->|[e1 [e2 [rest ->]]]]; discriminate.
Qed.

(** C6 on the tree built from [["a", "b"]]: the digest of ["a"] is in the
    tree, and [request_proof("a")] fails with [AttributeError]; the digest of
    ["z"] is not, and the request fails with the [Exception] of line 143. *)
Theorem request_proof_fails_for_present_digest :
  __init__ ab default_digest = Ok ab_tree /\
  node_is_None (__find (root ab_tree) (digest ab_tree (PyStr "a"))) = false /\
  request_proof ab_tree (PyStr "a") = Raise AttributeError /\
  node_is_None (__find (root ab_tree) (digest ab_tree (PyStr "z"))) = true /\
  request_proof ab_tree (PyStr "z") = Raise (Exception not_contained_msg).
Proof.
  split; [exact ab_tree_built|]. repeat split.
Qed.

(** ** Proof verification *)

Lemma string_length_append (s1 s2 : string) :
  String.length (s1 ++ s2)%string = String.length s1 + String.length s2.
Proof. induction s1 as [|c s1 IH]; simpl; auto. Qed.

(** Under the default delegate the accumulator never gets shorter, and once
    it is ["aa"] it stays ["aa"] or grows past two characters. *)
Lemma verify_acc_after_aa (proof : list (string * side)) (acc : string) :
  acc = "aa"%string \/ 3 <= String.length acc ->
  let final :=
    fold_left
      (fun acc entry =>
         match snd entry with
         | Left => default_digest (PyStr (fst entry ++ acc)%string)
         | Right => default_digest (PyStr (acc ++ fst entry)%string)
         end)
      proof acc in
  final = "aa"%string \/ 3 <= String.length final.
Proof.
  revert acc. induction proof as [|[sib sd] proof IH]; intros acc Hacc.
  - exact Hacc.
  - cbn [fold_left snd fst default_digest]. apply IH.
    destruct sd.
    + destruct Hacc as [->|Hlen].
      * destruct sib as [|c sib]; [now left|].
        right. rewrite string_length_append. simpl. lia.
      * right. rewrite string_length_append. lia.
    + destruct Hacc as [->|Hlen].
      * destruct sib as [|c sib]; [now left|].
        right. rewrite string_length_append. simpl. lia.
      * right. rewrite string_length_append. lia.
Qed.

(** A proof whose first entry carries the item digest ["a"] itself is
    rejected against the root ["ab"], on either side and whatever follows. *)
Lemma verify_rejects_own_digest_first (sd : side) (q : list (string * side)) :
  verify default_digest "a" (("a"%string, sd) :: q) "ab" = false.
Proof.
  pose proof (@verify_acc_after_aa q "aa"%string (or_introl eq_refl)) as Hfinal.
  cbv zeta in Hfinal.
  unfold verify. apply String.eqb_neq. intros Heq.
  destruct sd; cbn [fold_left snd fst] in Heq.
  all: destruct Hfinal as [H|H];
    [ pose proof (eq_trans (eq_sym Heq) H) as Habs; discriminate Habs
    | match type of H with
      | 3 <= ?n =>
          assert (Hl : n = 2) by exact (f_equal String.length Heq); lia
      end ].
Qed.

(** C5 on the tree built from [["a", "b"]]: ["a"] is an item and its digest
    is in the tree, yet [request_proof("a")] returns no proof that the
    verifier could accept: it raises [AttributeError].  Whatever method line
    146 calls and however a direction is read as a side, a list that lines
    148-151 return is rejected by the verifier against the root digest. *)
Theorem no_proof_to_verify :
  __init__ ab default_digest = Ok ab_tree /\
  In (PyStr "a") ab /\
  (exists r, root ab_tree = Some r /\ value r = "ab"%string) /\
  request_proof ab_tree (PyStr "a") = Raise AttributeError /\
  (forall p, request_proof ab_tree (PyStr "a") <> Ok p) /\
  (forall h side_of p,
     request_proof_with h ab_tree (PyStr "a") = Ok p ->
     verify default_digest (default_digest (PyStr "a"))
       (map (as_verifier_entry side_of) p) "ab" = false).
Proof.
  split; [exact ab_tree_built|].
  split; [now left|].
  split; [eexists; split; reflexivity|].
  split; [reflexivity|].
  split; [intros p; apply request_proof_never_returns|].
  intros h side_of p Hp. apply request_proof_with_length in Hp.
  destruct Hp as [->|[e1 [e2 [rest ->]]]]; [reflexivity|].
  change (map (as_verifier_entry side_of) (?x :: ?l))
    with (as_verifier_entry side_of x :: map (as_verifier_entry side_of) l).
  apply verify_rejects_own_digest_first.
Qed.

(** ** The fold of the code and the fold of the design *)

(** A level of odd length, three nodes or more, is folded as if its last node
    were not there. *)
Lemma __build_root_odd_level (self : MerkleTree) (collection : list __Node)
  (n : __Node) :
  collection <> [] ->
  Nat.even (List.length collection) = true ->
  __build_root self (collection ++ [n]) = __build_root self collection.
Proof.
  intros Hne Hev.
  destruct collection as [|a [|b rest]]; [contradiction | discriminate |].
  change ((a :: b :: rest) ++ [n]) with (a :: b :: (rest ++ [n])).
  rewrite !__build_root_step.
  change (a :: b :: (rest ++ [n])) with ((a :: b :: rest) ++ [n]).
  now rewrite pair_level_odd.
Qed.

Lemma is_pow2_not_0 : ~ is_pow2 0.
Proof. intros [k Hk]. symmetry in Hk. now apply Nat.pow_nonzero in Hk. Qed.

(** On a level whose length is a power of two the code and the design fold
    to the same root. *)
Lemma __build_root_design_fold (self : MerkleTree) (collection : list __Node) :
  forall fuel,
    is_pow2 (List.length collection) ->
    List.length collection <= fuel ->
    exists r,
      __build_root self collection = Ok r /\
      design_fold (digest self) fuel collection = Some r.
Proof.
  induction collection as [|n|a b rest IH] using (level_ind self);
    intros fuel Hpow Hfuel.
  - now apply is_pow2_not_0 in Hpow.
  - exists n. split; [apply __build_root_single|].
    destruct fuel; reflexivity.
  - apply is_pow2_half in Hpow. destruct Hpow as [Hev Hhalf].
    destruct fuel as [|fuel]; [simpl in Hfuel; lia|].
    rewrite __build_root_step. cbn [design_fold].
    rewrite <- (pair_level_even self (a :: b :: rest) Hev).
    apply IH.
    + now rewrite pair_level_length.
    + rewrite pair_level_length.
      pose proof (Nat.lt_div2 (List.length (a :: b :: rest))) as Hlt.
      simpl in Hlt, Hfuel |- *. lia.
Qed.

Lemma design_level_app (D : pyobj -> string) (l m : list __Node) :
  Nat.even (List.length l) = true ->
  design_level D (l ++ m) = design_level D l ++ design_level D m.
Proof.
  induction l as [|x|a b rest IH] using pair_ind; intros Hev.
  - reflexivity.
  - discriminate.
  - cbn [app design_level]. f_equal. apply IH. exact Hev.
Qed.

Lemma last_cons_default (A : Type) (rest : list A) :
  forall x d, last (x :: rest) d = last rest x.
Proof.
  induction rest as [|y rest IH]; intros x d; [reflexivity|].
  change (last (x :: y :: rest) d) with (last (y :: rest) d).
  now rewrite (IH y d), (IH y x).
Qed.

(** The padding of the items by [build_root] is the duplication the design
    applies to an odd leaf level. *)
Lemma design_level_padded (D : pyobj -> string) (iterable : list pyobj) :
  design_level D (map (leaf D) (padded iterable)) =
  design_level D (map (leaf D) iterable).
Proof.
  destruct iterable as [|x rest]; [reflexivity|].
  unfold padded. destruct (Nat.even _) eqn:Hev; [reflexivity|].
  rewrite <- (last_cons_default rest x x).
  destruct (@exists_last _ (x :: rest)) as [l [y Hl]]; [discriminate|].
  rewrite Hl in *. rewrite last_last.
  assert (Hl_even : Nat.even (List.length (map (leaf D) l)) = true).
  { rewrite length_map. rewrite length_app, Nat.add_1_r, Nat.even_succ in Hev.
    rewrite <- Nat.negb_odd, Hev. reflexivity. }
  rewrite <- app_assoc, !map_app.
  rewrite !(design_level_app D _ _ Hl_even). reflexivity.
Qed.

Lemma design_fold_step (D : pyobj -> string) (fuel : nat) (a b : __Node)
  (rest : list __Node) :
  design_fold D (S fuel) (a :: b :: rest) =
  design_fold D fuel (design_level D (a :: b :: rest)).
Proof. reflexivity. Qed.

Lemma padded_length (iterable : list pyobj) :
  Nat.even (List.length (padded iterable)) = true /\
  List.length (padded iterable) <= S (List.length iterable).
Proof.
  destruct iterable as [|x rest]; [split; [reflexivity | simpl; lia]|].
  unfold padded.
  destruct (Nat.even (List.length (x :: rest))) eqn:E; [split; [exact E | lia]|].
  rewrite length_app, Nat.add_1_r, Nat.even_succ, <- Nat.negb_even, E.
  split; [reflexivity | lia].
Qed.

(** For two items or more whose padded count is a power of two, the root the
    constructor stores is the root of the design. *)
Lemma root_is_design_root (iterable : list pyobj) (D : pyobj -> string) :
  2 <= List.length iterable ->
  is_pow2 (List.length (padded iterable)) ->
  exists r,
    __init__ iterable D = Ok (mkTree D (Some r)) /\
    design_root D iterable = Some r.
Proof.
  intros Hlen Hpow.
  destruct iterable as [|x [|y rest]]; try (simpl in Hlen; lia). clear Hlen.
  rewrite __init___eq. unfold design_root.
  change (map (leaf D) (x :: y :: rest))
    with (leaf D x :: leaf D y :: map (leaf D) rest).
  change (List.length (x :: y :: rest)) with (S (S (List.length rest))).
  rewrite design_fold_step.
  change (leaf D x :: leaf D y :: map (leaf D) rest)
    with (map (leaf D) (x :: y :: rest)).
  rewrite <- design_level_padded.
  destruct (padded_length (x :: y :: rest)) as [Hev Hbound].
  destruct (padded (x :: y :: rest)) as [|p [|q prest]];
    [ now apply is_pow2_not_0 in Hpow | discriminate Hev | ].
  apply is_pow2_half in Hpow. destruct Hpow as [_ Hhalf].
  change (map (leaf D) (p :: q :: prest))
    with (leaf D p :: leaf D q :: map (leaf D) prest).
  rewrite __build_root_step.
  assert (Hev' : Nat.even (List.length
                   (leaf D p :: leaf D q :: map (leaf D) prest)) = true).
  { cbn [List.length] in *. now rewrite length_map. }
  pose proof (pair_level_even (mkTree D None) _ Hev') as Hpl.
  cbn [digest] in Hpl. rewrite <- Hpl.
  destruct (@__build_root_design_fold (mkTree D None)
              (pair_level (mkTree D None)
                 (leaf D p :: leaf D q :: map (leaf D) prest))
              (S (List.length rest))) as [r [Hr Hd]].
  - rewrite pair_level_length. cbn [List.length] in *.
    now rewrite length_map.
  - rewrite pair_level_length. cbn [List.length] in *.
    rewrite length_map.
    pose proof (Nat.div2_odd (S (S (List.length prest)))) as Hdiv.
    lia.
  - exists r. cbn [digest] in Hd. rewrite Hr. split; [reflexivity | exact Hd].
Qed.

(** ** What the root commits to *)

Lemma pair_level_firstn (self : MerkleTree) (m : nat) :
  forall collection,
    pair_level self (firstn (2 * m) collection) =
    firstn m (pair_level self collection).
Proof.
  induction m as [|m IH]; intros collection; [reflexivity|].
  replace (2 * S m) with (S (S (2 * m))) by lia.
  destruct collection as [|a [|b rest]]; try reflexivity.
  cbn [firstn pair_level]. f_equal. apply IH.
Qed.

Lemma pow2_log2_half (n : nat) :
  2 ^ Nat.log2 (S (S n)) = 2 * 2 ^ Nat.log2 (Nat.div2 (S (S n))).
Proof.
  remember (S (S n)) as L eqn:HL.
  assert (Hhalf : 0 < Nat.div2 L).
  { rewrite HL. change (0 < S (Nat.div2 n)). apply Nat.lt_0_succ. }
  pose proof (Nat.log2_spec _ Hhalf) as [Hlo Hhi].
  pose proof (Nat.div2_odd L) as Hdiv.
  rewrite Nat.pow_succ_r' in Hhi.
  rewrite <- Nat.pow_succ_r'. f_equal.
  apply Nat.log2_unique; [lia|].
  rewrite !Nat.pow_succ_r'.
  destruct (Nat.odd L); cbn [Nat.b2n] in Hdiv; lia.
Qed.

(** The fold of a level depends only on its first [2 ^ log2 (length)]
    nodes: the nodes after them are left out on the way up. *)
Lemma __build_root_prefix (self : MerkleTree) (collection : list __Node) :
  collection <> [] ->
  __build_root self collection =
  __build_root self (firstn (2 ^ Nat.log2 (List.length collection)) collection).
Proof.
  induction collection as [|n|a b rest IH] using (level_ind self); intros Hne.
  - contradiction.
  - reflexivity.
  - rewrite __build_root_step, (IH (@pair_level_not_nil self a b rest)).
    rewrite pair_level_length.
    cbn [List.length]. rewrite pow2_log2_half.
    set (m := 2 ^ Nat.log2 (Nat.div2 (S (S (List.length rest))))).
    assert (Hm : m <> 0) by (subst m; now apply Nat.pow_nonzero).
    rewrite <- pair_level_firstn.
    destruct m as [|m]; [contradiction|].
    replace (2 * S m) with (S (S (2 * m))) by lia.
    cbn [firstn]. now rewrite __build_root_step.
Qed.

(** Two levels of the same length that agree on that prefix fold to the same
    result, whatever their other nodes are. *)
Lemma __build_root_ignores_tail (self : MerkleTree) (c1 c2 : list __Node) :
  c1 <> [] ->
  List.length c1 = List.length c2 ->
  firstn (2 ^ Nat.log2 (List.length c1)) c1 =
  firstn (2 ^ Nat.log2 (List.length c1)) c2 ->
  __build_root self c1 = __build_root self c2.
Proof.
  intros Hne Hlen Hpre.
  rewrite (@__build_root_prefix self c1 Hne).
  rewrite (@__build_root_prefix self c2).
  - now rewrite <- Hlen, Hpre.
  - intros ->. destruct c1; [contradiction | discriminate].
Qed.

(** Every node among the first [2 ^ log2 (length)] of a level is in the tree
    the fold returns. *)
Lemma __build_root_keeps_prefix (self : MerkleTree) (collection : list __Node)
  (r n : __Node) :
  __build_root self collection = Ok r ->
  In n (firstn (2 ^ Nat.log2 (List.length collection)) collection) ->
  In n (nodes r).
Proof.
  intros Hr Hin.
  assert (Hne : collection <> []) by (intros ->; destruct (2 ^ _); contradiction).
  rewrite (@__build_root_prefix self collection Hne) in Hr.
  eapply __build_root_keeps; [|exact Hr|exact Hin].
  exists (Nat.log2 (List.length collection)).
  apply firstn_length_le, Nat.log2_spec.
  destruct collection; [contradiction | simpl; lia].
Qed.

(** X6: the items among the first [2 ^ log2 n] of the [n] padded items,
    [None] apart, are answered [True] by [contains]. *)
Lemma kept_items_are_contained (iterable : list pyobj) (D : pyobj -> string)
  (t : MerkleTree) (x : pyobj) :
  __init__ iterable D = Ok t ->
  In x (firstn (2 ^ Nat.log2 (List.length (padded iterable))) (padded iterable)) ->
  is_None x = false ->
  contains t x = true.
Proof.
  intros Hinit Hin Hx.
  rewrite __init___eq in Hinit.
  destruct iterable as [|y rest]; [discriminate|].
  destruct (__build_root _ _) as [r|e] eqn:Hr; [|discriminate].
  injection Hinit as <-.
  rewrite contains_eq, Hx. cbn [negb andb root digest nodes_from].
  apply existsb_exists. exists (leaf D x). split.
  - eapply __build_root_keeps_prefix; [exact Hr|].
    rewrite length_map, firstn_map. now apply in_map.
  - apply String.eqb_refl.
Qed.

(** * Further properties of the code *)

(** ** One fold level and the fold *)

Lemma nth_error_pair_level (self : MerkleTree) (i : nat) :
  forall collection,
    nth_error (pair_level self collection) i =
    match nth_error collection (2 * i), nth_error collection (2 * i + 1) with
    | Some a, Some b => Some (parent (digest self) a b)
    | _, _ => None
    end.
Proof.
  induction i as [|i IH]; intros collection.
  - destruct collection as [|a [|b rest]]; reflexivity.
  - replace (2 * S i) with (S (S (2 * i))) by lia.
    destruct collection as [|a [|b rest]]; try reflexivity.
    cbn [pair_level nth_error Nat.add]. apply IH.
Qed.

(** X1: one pass of the pairing loop of [__build_root] (lines 87-93) raises
    only on an empty level, and then [IndexError]; on any other level of [n]
    nodes every index it reads is in range and it returns [n // 2] parents,
    the [i]-th made of the nodes at [2i] and [2i + 1], left and right, with
    the digest of their concatenated values. *)
Theorem fold_level_pairs (self : MerkleTree) (collection : list __Node) :
  (fold_level self collection = Raise IndexError <-> collection = []) /\
  (collection = [] \/
   exists next_level,
     fold_level self collection = Ok next_level /\
     List.length next_level = Nat.div2 (List.length collection) /\
     forall i, i < List.length next_level ->
       exists a b,
         nth_error collection (2 * i) = Some a /\
         nth_error collection (2 * i + 1) = Some b /\
         nth_error next_level i = Some (parent (digest self) a b)).
Proof.
  rewrite fold_level_eq.
  destruct collection as [|n rest].
  - split; [tauto | now left].
  - split; [split; discriminate|].
    right. exists (pair_level self (n :: rest)).
    split; [reflexivity|]. split; [apply pair_level_length|].
    intros i Hi.
    apply nth_error_Some in Hi.
    rewrite nth_error_pair_level in Hi |- *.
    destruct (nth_error (n :: rest) (2 * i)) as [a|]; [|contradiction].
    destruct (nth_error (n :: rest) (2 * i + 1)) as [b|]; [|contradiction].
    now exists a, b.
Qed.

(** X2: [__build_root] raises exactly on the empty list, and then
    [IndexError] from [collection[-1]]; on every other list the recursion
    ends and returns a node. *)
Theorem __build_root_raises_iff_empty (self : MerkleTree)
  (collection : list __Node) :
  ((exists e, __build_root self collection = Raise e) <-> collection = []) /\
  (__build_root self collection = Raise IndexError <-> collection = []) /\
  (collection = [] \/ exists r, __build_root self collection = Ok r).
Proof.
  destruct collection as [|n rest].
  - rewrite __build_root_nil. repeat split; auto.
    exists IndexError. reflexivity.
  - destruct (@__build_root_total self (n :: rest)) as [r Hr]; [discriminate|].
    rewrite Hr. repeat split; try discriminate.
    + intros [e He]. discriminate.
    + right. now exists r.
Qed.

(** ** The items the tree is made of *)

Lemma padded_even (iterable : list pyobj) :
  Nat.even (List.length iterable) = true -> padded iterable = iterable.
Proof.
  destruct iterable as [|x rest]; [reflexivity|].
  unfold padded. now intros ->.
Qed.

Lemma pow2_even (k : nat) : 1 <= k -> Nat.even (2 ^ k) = true.
Proof.
  destruct k as [|k]; [lia|]. intros _.
  rewrite Nat.pow_succ_r'. apply Nat.even_spec. now exists (2 ^ k).
Qed.

(** The kept items of a non-empty input: a power of two, two at least, of
    them, and the fold of the padded leaves is the fold of their leaves. *)
Lemma kept_facts (x : pyobj) (rest : list pyobj) (D : pyobj -> string) :
  let k := Nat.log2 (List.length (padded (x :: rest))) in
  1 <= k /\
  List.length (kept (x :: rest)) = 2 ^ k /\
  __build_root (mkTree D None) (map (leaf D) (padded (x :: rest))) =
  __build_root (mkTree D None) (map (leaf D) (kept (x :: rest))).
Proof.
  intros k.
  destruct (padded_length (x :: rest)) as [Hev _].
  pose proof (@padded_not_nil x rest) as Hne.
  assert (Hlen : 2 <= List.length (padded (x :: rest))).
  { destruct (padded (x :: rest)) as [|p [|q prest]];
      [contradiction | discriminate | simpl; lia]. }
  assert (Hk : 1 <= k) by (apply Nat.log2_pos; lia).
  assert (Hle : 2 ^ k <= List.length (padded (x :: rest)))
    by (apply Nat.log2_spec; lia).
  split; [exact Hk|]. split.
  - unfold kept. fold k. now apply firstn_length_le.
  - rewrite __build_root_prefix.
    + rewrite length_map, firstn_map. reflexivity.
    + intros H. apply map_eq_nil in H. contradiction.
Qed.

(** X3: the tree built from a collection is the tree built from its kept
    items alone, the first [2 ^ log2 n] of the [n] padded items: the items
    after them have no influence on the root or on any node. *)
Theorem tree_is_tree_of_kept_items (iterable : list pyobj)
  (D : pyobj -> string) :
  __init__ iterable D = __init__ (kept iterable) D.
Proof.
  destruct iterable as [|x rest].
  - unfold kept. cbn [padded]. now rewrite firstn_nil.
  - destruct (kept_facts x rest D) as [Hk [Hlen Hroot]].
    rewrite !__init___eq, Hroot.
    assert (Hpad : padded (kept (x :: rest)) = kept (x :: rest)).
    { apply padded_even. rewrite Hlen. now apply pow2_even. }
    rewrite Hpad.
    destruct (kept (x :: rest)) as [|y krest]; [|reflexivity].
    simpl in Hlen. symmetry in Hlen. now apply Nat.pow_nonzero in Hlen.
Qed.

Lemma perfect_leaf (D : pyobj -> string) (x : pyobj) :
  perfect 0 (leaf D x) = true.
Proof. reflexivity. Qed.

Lemma perfect_size (h : nat) :
  forall n, perfect h n = true -> List.length (nodes n) = 2 ^ S h - 1.
Proof.
  induction h as [|h IH]; intros [val [l|] [r|]] H;
    cbn [perfect left right] in H; try discriminate.
  - reflexivity.
  - apply andb_true_iff in H. destruct H as [Hl Hr].
    cbn [nodes List.length]. rewrite length_app, (IH l Hl), (IH r Hr).
    rewrite (Nat.pow_succ_r' 2 (S h)).
    assert (Hpos : 2 ^ S h <> 0) by now apply Nat.pow_nonzero.
    lia.
Qed.

Lemma pair_level_perfect (self : MerkleTree) (h : nat)
  (collection : list __Node) :
  Forall (fun n => perfect h n = true) collection ->
  Forall (fun n => perfect (S h) n = true) (pair_level self collection).
Proof.
  induction collection as [|x|a b rest IH] using pair_ind; intros Hall;
    cbn [pair_level]; try constructor.
  - inversion Hall as [|? ? Ha Hrest]; subst.
    inversion Hrest as [|? ? Hb Hrest']; subst.
    cbn [perfect left right]. now rewrite Ha, Hb.
  - apply IH. inversion Hall as [|? ? _ Hrest]; subst.
    now inversion Hrest.
Qed.

(** A level of [2 ^ k] perfect trees of height [h] folds to a perfect tree
    of height [k + h]. *)
Lemma __build_root_perfect (self : MerkleTree) (collection : list __Node) :
  forall h k r,
    List.length collection = 2 ^ k ->
    Forall (fun n => perfect h n = true) collection ->
    __build_root self collection = Ok r ->
    perfect (k + h) r = true.
Proof.
  induction collection as [|n|a b rest IH] using (level_ind self);
    intros h k r Hlen Hall Hr.
  - simpl in Hlen. symmetry in Hlen. now apply Nat.pow_nonzero in Hlen.
  - rewrite __build_root_single in Hr. injection Hr as <-.
    destruct k as [|k].
    + now inversion Hall.
    + exfalso. rewrite Nat.pow_succ_r' in Hlen.
      assert (Hpos : 2 ^ k <> 0) by now apply Nat.pow_nonzero.
      simpl in Hlen. lia.
  - rewrite __build_root_step in Hr.
    destruct k as [|k]; [discriminate|].
    rewrite Nat.add_succ_comm.
    apply IH; [| now apply pair_level_perfect | exact Hr].
    rewrite pair_level_length, Hlen, Nat.pow_succ_r'.
    apply Nat.div2_double.
Qed.

Lemma fringe_parent (v : string) (a b : __Node) :
  fringe (mkNode v (Some a) (Some b)) = fringe a ++ fringe b.
Proof. reflexivity. Qed.

Lemma pair_level_fringe (self : MerkleTree) (collection : list __Node) :
  Nat.even (List.length collection) = true ->
  flat_map fringe (pair_level self collection) = flat_map fringe collection.
Proof.
  induction collection as [|x|a b rest IH] using pair_ind; intros Hev.
  - reflexivity.
  - discriminate.
  - cbn [pair_level flat_map]. rewrite fringe_parent, (IH Hev).
    now rewrite app_assoc.
Qed.

(** A level whose length is a power of two folds to a tree whose childless
    nodes are those of the level, in the same order. *)
Lemma __build_root_fringe (self : MerkleTree) (collection : list __Node) :
  forall r,
    is_pow2 (List.length collection) ->
    __build_root self collection = Ok r ->
    fringe r = flat_map fringe collection.
Proof.
  induction collection as [|n|a b rest IH] using (level_ind self);
    intros r Hpow Hr.
  - now apply is_pow2_not_0 in Hpow.
  - rewrite __build_root_single in Hr. injection Hr as <-.
    cbn [flat_map]. now rewrite app_nil_r.
  - rewrite __build_root_step in Hr.
    apply is_pow2_half in Hpow. destruct Hpow as [Hev Hhalf].
    rewrite <- (pair_level_fringe self (a :: b :: rest) Hev).
    apply IH; [|exact Hr]. now rewrite pair_level_length.
Qed.

Lemma fringe_leaves (D : pyobj -> string) (items : list pyobj) :
  flat_map fringe (map (leaf D) items) = map D items.
Proof.
  induction items as [|x items IH]; [reflexivity|].
  cbn [map flat_map]. now rewrite IH.
Qed.

(** The root of a built tree: a perfect tree over the leaves of the kept
    items. *)
Lemma built_root_facts (iterable : list pyobj) (D : pyobj -> string)
  (t : MerkleTree) :
  __init__ iterable D = Ok t ->
  exists r,
    root t = Some r /\
    perfect (Nat.log2 (List.length (padded iterable))) r = true /\
    fringe r = map D (kept iterable) /\
    tree_ok D (map (leaf D) (kept iterable)) r.
Proof.
  intros Hinit. rewrite __init___eq in Hinit.
  destruct iterable as [|x rest]; [discriminate|].
  destruct (kept_facts x rest D) as [_ [Hlen Hroot]].
  rewrite Hroot in Hinit.
  destruct (__build_root _ _) as [r|e] eqn:Hr; [|discriminate].
  injection Hinit as <-. exists r. split; [reflexivity|].
  assert (Hleaves : List.length (map (leaf D) (kept (x :: rest))) =
                    2 ^ Nat.log2 (List.length (padded (x :: rest))))
    by now rewrite length_map.
  split; [|split].
  - rewrite <- (Nat.add_0_r (Nat.log2 _)).
    eapply __build_root_perfect; [exact Hleaves| |exact Hr].
    apply Forall_forall. intros m Hm.
    destruct (proj1 (in_map_iff _ _ _) Hm) as [y [<- _]].
    apply perfect_leaf.
  - rewrite <- fringe_leaves.
    eapply __build_root_fringe; [|exact Hr].
    rewrite Hleaves. now eexists.
  - eapply (@__build_root_ok (mkTree D None)); [|exact Hr].
    apply Forall_forall. intros m Hm.
    destruct (proj1 (in_map_iff _ _ _) Hm) as [y [<- _]].
    now apply tree_ok_leaf.
Qed.

(** X4: the built tree is perfect: with [n] padded items its height is
    [log2 n], every leaf is at that depth, and it has [2 ^ (log2 n + 1) - 1]
    nodes. *)
Theorem built_tree_is_perfect (iterable : list pyobj) (D : pyobj -> string)
  (t : MerkleTree) :
  __init__ iterable D = Ok t ->
  exists r,
    root t = Some r /\
    perfect (Nat.log2 (List.length (padded iterable))) r = true /\
    List.length (nodes r) =
      2 ^ S (Nat.log2 (List.length (padded iterable))) - 1.
Proof.
  intros Hinit.
  destruct (@built_root_facts iterable D t Hinit) as [r [Hroot [Hperf _]]].
  exists r. split; [exact Hroot|].
  split; [exact Hperf | now apply perfect_size].
Qed.

(** The tree built from [["a", "b", "c"]]: height 2, seven nodes. *)
Lemma built_tree_is_perfect_witness :
  exists r,
    root abc_tree = Some r /\
    perfect (Nat.log2 (List.length (padded abc))) r = true /\
    List.length (nodes r) = 2 ^ S (Nat.log2 (List.length (padded abc))) - 1.
Proof.
  apply (@built_tree_is_perfect abc default_digest abc_tree).
  reflexivity.
Defined.

(** X5: read from left to right, the values of the leaves of the built tree
    are the digests of the kept items, in input order: each kept item has one
    leaf, and no other item has any. *)
Theorem leaves_are_kept_digests (iterable : list pyobj) (D : pyobj -> string)
  (t : MerkleTree) :
  __init__ iterable D = Ok t ->
  exists r, root t = Some r /\ fringe r = map D (kept iterable).
Proof.
  intros Hinit.
  destruct (@built_root_facts iterable D t Hinit) as [r [Hroot [_ [Hfr _]]]].
  now exists r.
Qed.

(** Of six items the first four have leaves. *)
Lemma leaves_are_kept_digests_witness :
  exists r,
    root six_tree = Some r /\
    fringe r = map default_digest (kept six_items).
Proof.
  apply (@leaves_are_kept_digests six_items default_digest six_tree).
  reflexivity.
Defined.

(** Of six items the fourth is kept, and [contains] finds it. *)
Lemma kept_items_are_contained_witness :
  contains six_tree (PyStr "d") = true.
Proof.
  apply (@kept_items_are_contained six_items default_digest six_tree
           (PyStr "d")).
  - reflexivity.
  - cbn. do 3 right. left. reflexivity.
  - reflexivity.
Defined.

(** ** The root digest *)

Lemma fringe_length (h : nat) :
  forall n, perfect h n = true -> List.length (fringe n) = 2 ^ h.
Proof.
  induction h as [|h IH]; intros [val [l|] [r|]] H;
    cbn [perfect left right] in H; try discriminate.
  - reflexivity.
  - apply andb_true_iff in H. destruct H as [Hl Hr].
    rewrite fringe_parent, length_app, (IH l Hl), (IH r Hr).
    rewrite Nat.pow_succ_r'. lia.
Qed.

(** In a perfect tree whose internal nodes carry the digest of their
    children's values, the value of the top node is the hash of the values of
    the leaves. *)
Lemma perfect_value (D : pyobj -> string) (leaves : list __Node) (h : nat) :
  forall n,
    perfect h n = true ->
    tree_ok D leaves n ->
    value n = merkle D h (fringe n).
Proof.
  induction h as [|h IH]; intros [val [l|] [r|]] H Hok;
    cbn [perfect left right] in H; try discriminate.
  - reflexivity.
  - apply andb_true_iff in H. destruct H as [Hl Hr].
    unfold tree_ok in Hok. cbn [nodes] in Hok.
    inversion Hok as [|? ? Hnode Hsub]; subst.
    apply Forall_app in Hsub. destruct Hsub as [Hokl Hokr].
    unfold node_ok in Hnode. cbn [left right value] in Hnode.
    cbn [value merkle]. rewrite fringe_parent.
    rewrite firstn_app, skipn_app, (fringe_length h l Hl), Nat.sub_diag.
    rewrite firstn_all2 by (rewrite (fringe_length h l Hl); lia).
    rewrite skipn_all2 by (rewrite (fringe_length h l Hl); lia).
    cbn [firstn skipn app]. rewrite app_nil_r.
    rewrite <- (IH l Hl Hokl), <- (IH r Hr Hokr). exact Hnode.
Qed.

(** X7: the root digest is the hash of the digests of the kept items: for a
    single digest the digest itself, for more the digest of the hash of the
    first half followed by the hash of the second half. *)
Theorem root_digest_is_merkle_hash (iterable : list pyobj)
  (D : pyobj -> string) (t : MerkleTree) :
  __init__ iterable D = Ok t ->
  exists r,
    root t = Some r /\
    value r =
      merkle D (Nat.log2 (List.length (padded iterable)))
        (map D (kept iterable)).
Proof.
  intros Hinit.
  destruct (@built_root_facts iterable D t Hinit)
    as [r [Hroot [Hperf [Hfr Hok]]]].
  exists r. split; [exact Hroot|].
  rewrite <- Hfr. now apply perfect_value with (map (leaf D) (kept iterable)).
Qed.

(** The root digest of the tree built from [["a", "b", "c"]]. *)
Lemma root_digest_is_merkle_hash_witness :
  exists r,
    root abc_tree = Some r /\
    value r =
      merkle default_digest (Nat.log2 (List.length (padded abc)))
        (map default_digest (kept abc)).
Proof.
  apply (@root_digest_is_merkle_hash abc default_digest abc_tree).
  reflexivity.
Defined.

(** ** Items and their digests *)

Lemma last_map (A B : Type) (f : A -> B) (l : list A) :
  forall a, f (last l a) = last (map f l) (f a).
Proof.
  induction l as [|x l IH]; intros a; [reflexivity|].
  destruct l as [|y l]; [reflexivity|].
  change (f (last (y :: l) a) = last (map f (y :: l)) (f a)). apply IH.
Qed.

Lemma padded_map (D : pyobj -> string) (items1 items2 : list pyobj) :
  map D items1 = map D items2 ->
  map D (padded items1) = map D (padded items2).
Proof.
  intros Hmap.
  assert (Hlen : List.length items1 = List.length items2).
  { rewrite <- (length_map D items1), Hmap. apply length_map. }
  destruct items1 as [|x rest1], items2 as [|y rest2]; try discriminate.
  - reflexivity.
  - unfold padded. rewrite Hlen.
    destruct (Nat.even (List.length (y :: rest2))); [exact Hmap|].
    rewrite !map_app, Hmap. cbn [map]. rewrite !last_map.
    cbn [map] in Hmap. injection Hmap as Hx Hrest.
    now rewrite Hx, Hrest.
Qed.

(** X8: the tree depends on the items only through their digests: two
    collections with the same list of digests give the same tree, node for
    node, so items whose digests collide cannot be told apart in it. *)
Theorem tree_depends_on_digests_only (items1 items2 : list pyobj)
  (D : pyobj -> string) :
  map D items1 = map D items2 ->
  __init__ items1 D = __init__ items2 D.
Proof.
  intros Hmap. rewrite !__init___eq.
  assert (Hleaves : map (leaf D) (padded items1) = map (leaf D) (padded items2)).
  { change (leaf D) with (fun x => (fun d => mkNode d None None) (D x)).
    rewrite <- !(map_map D (fun d => mkNode d None None)).
    now rewrite (padded_map D items1 items2 Hmap). }
  rewrite Hleaves.
  destruct items1 as [|x rest1], items2 as [|y rest2];
    try discriminate; reflexivity.
Qed.

(** [None] and the string ["None"] have the same digest under the default
    delegate, and the two one-item trees are the same. *)
Lemma tree_depends_on_digests_only_witness :
  __init__ [PyNone] default_digest = __init__ [PyStr "None"] default_digest.
Proof.
  apply (@tree_depends_on_digests_only [PyNone] [PyStr "None"] default_digest).
  reflexivity.
Defined.

(** ** The [in] operator and proof requests *)

(** X9: the [in] operator ([__contains__]) returns a node exactly when some
    node of the tree carries the digest of the query; the node it returns
    carries that digest and is a node of the tree; and [contains] answers
    [True] exactly when the query is not [None] and [__contains__] returns a
    node. *)
Theorem in_operator_and_contains (self : MerkleTree) (v : pyobj) :
  (forall n, __contains__ self v = Some n ->
             value n = digest self v /\ In n (nodes_from (root self))) /\
  (__contains__ self v = None ->
   forall n, In n (nodes_from (root self)) -> value n <> digest self v) /\
  contains self v =
    negb (is_None v) && negb (node_is_None (__contains__ self v)).
Proof.
  unfold __contains__. rewrite __find_first_match.
  split; [|split].
  - intros n Hn. apply find_some in Hn. destruct Hn as [Hin Hv].
    split; [now apply String.eqb_eq | exact Hin].
  - intros Hnone n Hin Hv.
    pose proof (find_none _ _ Hnone n Hin) as Hneq. cbn beta in Hneq.
    rewrite Hv, String.eqb_refl in Hneq. discriminate.
  - rewrite contains_eq, <- find_is_Some_existsb. reflexivity.
Qed.

(** X10: [request_proof] never returns: when no node of the tree carries the
    digest of the query it raises the [Exception] of line 143, and when some
    node does it raises [AttributeError] at the call of the undefined method
    [__build_valid_proof]. *)
Theorem request_proof_outcome (self : MerkleTree) (v : pyobj) :
  request_proof self v =
  if existsb (fun m => String.eqb (value m) (digest self v))
       (nodes_from (root self))
  then Raise AttributeError
  else Raise (Exception not_contained_msg).
Proof.
  rewrite request_proof_eq, __find_first_match.
  rewrite <- find_is_Some_existsb. unfold node_is_None.
  destruct (find _ _); reflexivity.
Qed.

(** ** Printing the tree *)

Lemma depths_length (n : __Node) :
  forall d, List.length (depths n d) = List.length (nodes n).
Proof.
  induction n as [val l IHl r IHr] using __Node_ind. intros d.
  cbn [depths nodes List.length]. rewrite !length_app. f_equal.
  destruct IHl as [l' IHl|]; destruct IHr as [r' IHr|];
    rewrite ?IHl, ?IHr; reflexivity.
Qed.

Lemma combine_app_same (A B : Type) (l1 l2 : list A) (m1 m2 : list B) :
  List.length l1 = List.length m1 ->
  combine (l1 ++ l2) (m1 ++ m2) = combine l1 m1 ++ combine l2 m2.
Proof.
  revert m1. induction l1 as [|a l1 IH]; intros [|b m1] Hlen;
    try discriminate; [reflexivity|].
  cbn [app combine]. f_equal. apply IH. now injection Hlen.
Qed.

(** The [print] calls [__print] makes for a node at depth [d]: one per node
    below it, in the order of [nodes], the indent growing by two for every
    level. *)
Lemma print_node_lines (n : __Node) :
  forall indent d,
    print_node n (indent + 2 * Z.of_nat d)%Z =
    map (fun p => node_line (indent + 2 * Z.of_nat (fst p))%Z (value (snd p)))
      (combine (depths n d) (nodes n)).
Proof.
  induction n as [val l IHl r IHr] using __Node_ind. intros indent d.
  cbn [print_node depths nodes combine map fst snd value].
  f_equal.
  replace (indent + 2 * Z.of_nat d + 2)%Z
    with (indent + 2 * Z.of_nat (S d))%Z by lia.
  rewrite combine_app_same, map_app.
  - destruct IHl as [l' IHl|]; destruct IHr as [r' IHr|];
      rewrite ?IHl, ?IHr; reflexivity.
  - destruct l as [l'|]; [apply depths_length | reflexivity].
Qed.

(** X11: for every [int] indent, negative ones included, [dump(indent)]
    makes exactly one [print] call per node of the tree, root first and left
    subtree before right subtree (the order in which [__find] searches); the
    text printed for a node at depth [d] is [max(0, indent + 2d)] spaces,
    ["Node: "] and the node's value.  On a tree without root no call is
    made. *)
Theorem dump_lines (self : MerkleTree) (indent : Z) :
  dump self indent =
    map (fun p =>
           (spaces (Z.to_nat (Z.max 0 (indent + 2 * Z.of_nat (fst p))))
              ++ "Node: " ++ value (snd p))%string)
      (combine (depths_from (root self) 0) (nodes_from (root self))) /\
  List.length (dump self indent) = List.length (nodes_from (root self)) /\
  map snd (combine (depths_from (root self) 0) (nodes_from (root self))) =
    nodes_from (root self).
Proof.
  unfold dump, __print.
  destruct (root self) as [r|]; cbn [node_is_None depths_from nodes_from];
    [|repeat split].
  assert (Hlines : print_node r indent =
            map (fun p =>
                   (spaces (Z.to_nat (Z.max 0 (indent + 2 * Z.of_nat (fst p))))
                      ++ "Node: " ++ value (snd p))%string)
              (combine (depths r 0) (nodes r))).
  { replace indent with (indent + 2 * Z.of_nat 0)%Z at 1 by lia.
    rewrite print_node_lines. apply map_ext. intros [d m].
    unfold node_line. cbn [fst snd]. do 2 f_equal. lia. }
  split; [exact Hlines|]. split.
  - rewrite Hlines, length_map, length_combine, depths_length.
    apply Nat.min_id.
  - clear Hlines. generalize (depths_length r 0).
    generalize (depths r 0) (nodes r). intros ds ns. revert ds.
    induction ns as [|m ns IH]; intros [|e ds] Hlen; try discriminate;
      [reflexivity|].
    cbn [combine map snd]. f_equal. apply IH. now injection Hlen.
Qed.

Lemma print_node_length (n : __Node) (indent : Z) :
  List.length (print_node n indent) = List.length (nodes n).
Proof.
  replace indent with (indent + 2 * Z.of_nat 0)%Z by lia.
  rewrite print_node_lines, length_map, length_combine, depths_length.
  apply Nat.min_id.
Qed.

(** X12: on a built tree with [n] padded items [dump(indent)], for every
    [int] indent, makes [2 ^ (log2 n + 1) - 1] [print] calls, and the first
    prints the root: [max(0, indent)] spaces, ["Node: "] and the hash of the
    digests of the kept items. *)
Theorem dump_of_built_tree (iterable : list pyobj) (D : pyobj -> string)
  (t : MerkleTree) (indent : Z) :
  __init__ iterable D = Ok t ->
  List.length (dump t indent) =
    2 ^ S (Nat.log2 (List.length (padded iterable))) - 1 /\
  hd EmptyString (dump t indent) =
    (spaces (Z.to_nat (Z.max 0 indent)) ++ "Node: "
       ++ merkle D (Nat.log2 (List.length (padded iterable)))
            (map D (kept iterable)))%string.
Proof.
  intros Hinit.
  destruct (@built_root_facts iterable D t Hinit)
    as [r [Hroot [Hperf [Hfr Hok]]]].
  unfold dump. rewrite Hroot. cbn [node_is_None __print]. split.
  - rewrite print_node_length. now apply perfect_size.
  - rewrite <- Hfr, <- (perfect_value _ Hperf Hok).
    destruct r as [val l r]. cbn [print_node hd value]. unfold node_line.
    do 2 f_equal. lia.
Qed.

(** The tree built from [["a", "b", "c"]], dumped with indent [-1]: seven
    calls, the first printing ["Node: abcc"] with no space before it. *)
Lemma dump_of_built_tree_witness :
  List.length (dump abc_tree (-1)) =
    2 ^ S (Nat.log2 (List.length (padded abc))) - 1 /\
  hd EmptyString (dump abc_tree (-1)) =
    (spaces (Z.to_nat (Z.max 0 (-1))) ++ "Node: "
       ++ merkle default_digest (Nat.log2 (List.length (padded abc)))
            (map default_digest (kept abc)))%string.
Proof.
  apply (@dump_of_built_tree abc default_digest abc_tree (-1)).
  reflexivity.
Defined.
